(** * envd: compilation of an environment graph to a build plan

    A shallow embedding of [pkg/lang/ir/system.go].  The buildkit value
    [llb.State] is modelled as the ordered list of build steps that
    produce it; the Go pointer receiver of [compileBase] is modelled by
    returning the updated graph next to the result. *)

From Stdlib Require Import ZArith List Bool Lia.
From Stdlib Require Import Strings.String Strings.Ascii.
From Stdlib Require Import Numbers.DecimalString.
Import ListNotations.

Open Scope string_scope.
Open Scope Z_scope.

(** ** Go strings *)

Module GoString.

(** The double quote and the line feed, by their character codes. *)
Definition dq : string := String "034"%char EmptyString.
Definition nl : string := String "010"%char EmptyString.

(** [fmt.Sprintf("%d", n)] for a Go [int]. *)
Definition itoa (n : Z) : string := NilZero.string_of_int (Z.to_int n).

(** [strings.HasSuffix]. *)
Definition HasSuffix (s suffix : string) : bool :=
  (String.length suffix <=? String.length s)%nat &&
  String.eqb
    (substring (String.length s - String.length suffix)
               (String.length suffix) s)
    suffix.

(** [strings.TrimSuffix]: the suffix is removed once, when present. *)
Definition TrimSuffix (s suffix : string) : string :=
  if HasSuffix s suffix
  then substring 0 (String.length s - String.length suffix) s
  else s.

(** [strings.Join]. *)
Definition Join (elems : list string) (sep : string) : string :=
  String.concat sep elems.

(** [strings.Builder]: [WriteString] appends to the buffer. *)
Definition WriteString (sb s : string) : string := sb ++ s.

End GoString.
Import GoString.

(** ** Errors and results *)

(** Errors as [cockroachdb/errors] builds them: a leaf error raised by a
    callee, or the result of [errors.Wrap]. *)
Inductive error : Type :=
| ErrLeaf (msg : string)
| ErrWrap (cause : error) (msg : string).

Module errors.
(** [errors.Wrap(err, msg)], called here on non-nil errors only. *)
Definition Wrap (err : error) (msg : string) : error := ErrWrap err msg.
End errors.

(** The outcome of a Go call that returns [(T, error)] and that may
    panic on a nil pointer dereference. *)
Inductive result (A : Type) : Type :=
| Ok (a : A)
| Err (e : error)
| NilDeref.
Arguments Ok {A} a.
Arguments Err {A} e.
Arguments NilDeref {A}.

Definition bind {A B : Type} (r : result A) (k : A -> result B) : result B :=
  match r with
  | Ok a => k a
  | Err e => Err e
  | NilDeref => NilDeref
  end.

Notation "x <- r ;; k" := (bind r (fun x => k))
  (at level 61, r at next level, right associativity).

(** [*p] for a Go pointer [p]. *)
Definition deref {A : Type} (p : option A) : result A :=
  match p with
  | Some a => Ok a
  | None => NilDeref
  end.

Definition isNil {A : Type} (p : option A) : bool :=
  match p with
  | Some _ => false
  | None => true
  end.

(** ** The build plan ([llb]) *)

Module llb.

Inductive CacheMountSharingMode : Type :=
| CacheMountShared
| CacheMountPrivate
| CacheMountLocked.

(** The ownership option [llb.WithUIDGID]. *)
Record ChownOpt : Type := WithUIDGID { chownUID : Z; chownGID : Z }.

Inductive FileAction : Type :=
| Mkdir (path : string) (mode : Z) (parents : bool) (owner : ChownOpt)
| Mkfile (path : string) (mode : Z) (data : string) (owner : ChownOpt).

(** One step of the plan.  A mount carries the state mounted at its
    target and, for [llb.AsPersistentCacheDir], the cache identifier
    and the sharing mode. *)
Inductive Step : Type :=
| SetBaseImage (ref : string)
| SetEnv (key value : string)
| SetUser (name : string)
| RunShell (cmd : string) (name : option string) (mounts : list Mount)
| FileOp (action : FileAction) (name : option string)
with Mount : Type :=
| mkMount (target : string) (source : list Step)
          (cache : option (string * CacheMountSharingMode)).

(** [llb.State]: the steps that lead to the state, oldest first. *)
Definition State : Type := list Step.

Definition mountTarget (m : Mount) : string :=
  match m with mkMount t _ _ => t end.
Definition mountSource (m : Mount) : State :=
  match m with mkMount _ s _ => s end.
Definition mountCache (m : Mount)
  : option (string * CacheMountSharingMode) :=
  match m with mkMount _ _ c => c end.

(** [llb.State{}] and [llb.Scratch()] both have no step. *)
Definition zeroState : State := [].
Definition Scratch : State := [].

Definition Image (ref : string) : State := [SetBaseImage ref].
Definition AddEnv (s : State) (key value : string) : State :=
  (s ++ [SetEnv key value])%list.
Definition User (name : string) (s : State) : State :=
  (s ++ [SetUser name])%list.
Definition File (s : State) (a : FileAction) (name : option string)
  : State := (s ++ [FileOp a name])%list.

(** [llb.ExecState]: a command being assembled on top of a state.
    Mounts are added to it after [Run]; [Root] is the state after the
    command. *)
Record ExecState : Type := mkExec {
  execInput : State;
  execCmd : string;
  execName : option string;
  execMounts : list Mount
}.

(** [llb.Shlex] keeps the command line as it is written. *)
Definition Shlex (cmd : string) : string := cmd.

Definition WithCustomName (name : string) : option string := Some name.

Definition Run (s : State) (shlex : string) (name : option string)
  : ExecState := mkExec s shlex name [].

Definition AddMount (e : ExecState) (target : string) (source : State)
    (cache : option (string * CacheMountSharingMode)) : ExecState :=
  mkExec (execInput e) (execCmd e) (execName e)
         (execMounts e ++ [mkMount target source cache])%list.

Definition Root (e : ExecState) : State :=
  (execInput e ++ [RunShell (execCmd e) (execName e) (execMounts e)])%list.

(** [ExecState] embeds its root [State]: [run.Run(...)] runs on it. *)
Definition RunOn (e : ExecState) (shlex : string) (name : option string)
  : ExecState := Run (Root e) shlex name.

Definition AsPersistentCacheDir (id : string) (mode : CacheMountSharingMode)
  : option (string * CacheMountSharingMode) := Some (id, mode).

(** The kind of a step and the mounts of a shell step. *)
Definition isRunShell (st : Step) : bool :=
  match st with RunShell _ _ _ => true | _ => false end.
Definition isSetEnv (st : Step) : bool :=
  match st with SetEnv _ _ => true | _ => false end.
Definition mountsOf (st : Step) : list Mount :=
  match st with RunShell _ _ ms => ms | _ => [] end.

End llb.

(** ** The graph *)

Record LanguageT : Type := mkLanguage {
  Name : string;
  Version : option string
}.

(** The fields of [Graph] that [system.go] reads.  Pointers are options.
    [uid] and [gid] are Go [int]s: they are only compared and printed,
    never computed with, so they are integers without wrap-around.
    [EnvironmentName] is the identity of the environment. *)
Record Graph : Type := mkGraph {
  OS : string;
  Language : LanguageT;
  Image : option string;
  CUDA : option string;
  CUDNN : option string;
  SystemPackages : list string;
  Exec : list string;
  PublicKeyPath : string;
  EnvironmentName : string;
  uid : Z;
  gid : Z
}.

Definition set_uid (g : Graph) (u : Z) : Graph :=
  mkGraph (OS g) (Language g) (Image g) (CUDA g) (CUDNN g)
          (SystemPackages g) (Exec g) (PublicKeyPath g) (EnvironmentName g)
          u (gid g).

Definition set_gid (g : Graph) (i : Z) : Graph :=
  mkGraph (OS g) (Language g) (Image g) (CUDA g) (CUDNN g)
          (SystemPackages g) (Exec g) (PublicKeyPath g) (EnvironmentName g)
          (uid g) i.

(** Modelled from the spec: [Graph.CacheID] is not in [system.go].  The
    spec makes the identifier of a cache a pure function of the directory
    path and the environment identity, derived from the path so that
    unrelated directories do not collide: the path, then the identity. *)
Definition CacheID (g : Graph) (filename : string) : string :=
  filename ++ "/" ++ EnvironmentName g.

(** ** The stages of [system.go] *)

Definition pathEnv : string :=
  "$PATH:/usr/local/sbin:/usr/local/bin:/usr/sbin:/usr/bin:/sbin:/bin:/opt/conda/bin:/usr/local/julia/bin:/opt/conda/envs/envd/bin".

(** The command line [bash -c] followed by [c] between double quotes,
    as [fmt.Sprintf] builds it. *)
Definition bashC (c : string) : string := "bash -c " ++ dq ++ c ++ dq.

Definition compileRun (g : Graph) (root : llb.State) : llb.State :=
  if (List.length (Exec g) =? 0)%nat then root
  else
    let root := llb.AddEnv root "PATH" pathEnv in
    if (List.length (Exec g) =? 1)%nat then
      llb.Root (llb.Run root (llb.Shlex (bashC (nth 0 (Exec g) EmptyString))) None)
    else
      let run :=
        llb.Run root (llb.Shlex (bashC (nth 0 (Exec g) EmptyString))) None in
      let run :=
        fold_left (fun run c => llb.RunOn run (llb.Shlex (bashC c)) None)
                  (skipn 1 (Exec g)) run in
      llb.Root run.

Definition compileSystemPackages (g : Graph) (root : llb.State) : llb.State :=
  if (List.length (SystemPackages g) =? 0)%nat then root
  else
    let sb := EmptyString in
    let sb :=
      WriteString sb
        "sudo apt-get update && sudo apt-get install -y --no-install-recommends" in
    let sb :=
      fold_left (fun sb pkg => WriteString sb (" " ++ pkg))
                (SystemPackages g) sb in
    let cacheDir := "/var/cache/apt" in
    let cacheLibDir := "/var/lib/apt" in
    let run :=
      llb.Run root (llb.Shlex (bashC sb))
        (llb.WithCustomName
           ("apt-get install " ++ Join (SystemPackages g) " ")) in
    let run :=
      llb.AddMount run cacheDir llb.Scratch
        (llb.AsPersistentCacheDir (CacheID g cacheDir) llb.CacheMountShared) in
    let run :=
      llb.AddMount run cacheLibDir llb.Scratch
        (llb.AsPersistentCacheDir (CacheID g cacheLibDir) llb.CacheMountShared) in
    llb.Root run.

Section Stages.

(** [viper.GetString(flag.FlagDockerOrganization)]. *)
Variable dockerOrganization : string.
(** [version.GetGitTagFromVersion()]. *)
Variable gitTag : string.
(** [Graph.installConda], defined in another file of the package: it
    returns the state with conda installed, or an error. *)
Variable installConda : Graph -> llb.State -> llb.State * option error.
(** The package-level graph [DefaultGraph]. *)
Variable DefaultGraph : Graph.
(** [os.ReadFile] on the local file system: the bytes and the error. *)
Variable ReadFile : string -> string * option error.
(** [config.ContainerAuthorizedKeysPath]. *)
Variable ContainerAuthorizedKeysPath : string.

Definition compileCUDAPackages (g : Graph) : result llb.State :=
  cuda <- deref (CUDA g) ;;
  cudnn <- deref (CUDNN g) ;;
  Ok (llb.Image
        ("docker.io/" ++ dockerOrganization ++ "/python:3.9-" ++ OS g
         ++ "-cuda" ++ cuda ++ "-cudnn" ++ cudnn ++ "-envd-" ++ gitTag)).

(** [compileBase], lines 129 to 156: the base image when [g.Image] is
    nil, with the identifiers of the graph as the [r] case leaves
    them. *)
Definition compileBase_image (g : Graph) : Graph * result llb.State :=
  if isNil (CUDA g) && isNil (CUDNN g) then
    if (Name (Language g) =? "r")%string then
      let base :=
        llb.Image ("docker.io/" ++ dockerOrganization
                   ++ "/r-base:4.2-envd-" ++ gitTag) in
      let g := if gid g =? 1000 then set_gid g 1001 else g in
      let g := if uid g =? 1000 then set_uid g 1001 else g in
      (g, Ok base)
    else if (Name (Language g) =? "python")%string then
      (g, Ok (llb.Image ("docker.io/" ++ dockerOrganization
                         ++ "/python:3.9-ubuntu20.04-envd-" ++ gitTag)))
    else if (Name (Language g) =? "julia")%string then
      (g, Ok (llb.Image ("docker.io/" ++ dockerOrganization
                         ++ "/julia:1.8rc1-ubuntu20.04-envd-" ++ gitTag)))
    else (g, Ok llb.zeroState)
  else (g, compileCUDAPackages g).

(** [compileBase], lines 166 to 194: the account of the environment. *)
Definition compileBase_user (g : Graph) (condaStage : llb.State)
  : llb.ExecState :=
  if uid g =? 0 then
    let res :=
      llb.Run condaStage
        (llb.Shlex ("groupadd -g " ++ itoa 1001 ++ " envd"))
        (llb.WithCustomName
           "[internal] still create group envd for root context") in
    let res :=
      llb.RunOn res
        (llb.Shlex ("useradd -p " ++ dq ++ dq ++ " -u " ++ itoa 1001
                    ++ " -g envd -s /bin/sh -m envd"))
        (llb.WithCustomName
           "[internal] still create user envd for root context") in
    let res :=
      llb.RunOn res (llb.Shlex "usermod -s /bin/sh root")
        (llb.WithCustomName
           "[internal] set root default shell to /bin/sh") in
    let res :=
      llb.RunOn res
        (llb.Shlex ("sed -i " ++ dq ++ "s/envd:x:1001:1001/envd:x:0:0/g"
                    ++ dq ++ " /etc/passwd"))
        (llb.WithCustomName "[internal] set envd uid to 0 as root") in
    let res :=
      llb.RunOn res
        (llb.Shlex ("sed -i " ++ dq ++ "s./root./home/envd.g"
                    ++ dq ++ " /etc/passwd"))
        (llb.WithCustomName
           "[internal] set root home dir to /home/envd") in
    let res :=
      llb.RunOn res
        (llb.Shlex ("sed -i " ++ dq ++ "s/envd:x:1001/envd:x:0/g"
                    ++ dq ++ " /etc/group"))
        (llb.WithCustomName
           "[internal] set envd group to 0 as root group") in
    llb.RunOn res (llb.Shlex "chown -R root:root /opt/conda")
      (llb.WithCustomName "[internal] configure user permissions")
  else
    let res :=
      llb.Run condaStage
        (llb.Shlex ("groupadd -g " ++ itoa (gid g) ++ " envd"))
        (llb.WithCustomName "[internal] create user group envd") in
    let res :=
      llb.RunOn res
        (llb.Shlex ("useradd -p " ++ dq ++ dq ++ " -u " ++ itoa (uid g)
                    ++ " -g envd -s /bin/sh -m envd"))
        (llb.WithCustomName "[internal] create user envd") in
    let res :=
      llb.RunOn res (llb.Shlex "adduser envd sudo")
        (llb.WithCustomName "[internal] add user envd to sudoers") in
    let res :=
      llb.RunOn res (llb.Shlex "chown -R envd:envd /usr/local/lib")
        (llb.WithCustomName "[internal] configure user permissions") in
    llb.RunOn res (llb.Shlex "chown -R envd:envd /opt/conda")
      (llb.WithCustomName "[internal] configure user permissions").

(** [compileBase] has a pointer receiver: the graph it leaves behind is
    returned with the outcome. *)
Definition compileBase (g : Graph) : Graph * result llb.State :=
  match Image g with
  | Some image => (g, Ok (llb.Image image))
  | None =>
    let '(g, base) := compileBase_image g in
    (g,
     base <- base ;;
     let '(condaStage, err) := installConda g base in
     match err with
     | Some err => Err (errors.Wrap err "failed to install conda")
     | None => Ok (llb.User "envd" (llb.Root (compileBase_user g condaStage)))
     end)
  end.

Definition copySSHKey (g : Graph) (root : llb.State) : result llb.State :=
  let public := PublicKeyPath DefaultGraph in
  let '(bdat, err) := ReadFile public in
  let dat := TrimSuffix bdat nl in
  match err with
  | Some err => Err (errors.Wrap err "Cannot read public SSH key")
  | None =>
    let run :=
      llb.File root
        (llb.Mkdir "/var/envd" 493 true (llb.WithUIDGID (uid g) (gid g)))
        None in
    let run :=
      llb.File run
        (llb.Mkfile ContainerAuthorizedKeysPath 420 (dat ++ " envd")
                    (llb.WithUIDGID (uid g) (gid g)))
        (llb.WithCustomName "install ssh keys") in
    Ok run
  end.

End Stages.

(** ** The file stager

    [compileCopy] reads one more field of the graph, [Copy], and uses
    two more operations of [llb]: the local source [llb.Local] and the
    file action [llb.Copy].  A plan with copies is a list of the steps
    above and of these two. *)

Module llbcopy.

#[warnings="-register-all"]
Inductive Step : Type :=
| Plain (st : llb.Step)
| LocalSource (name : string)
| CopyOp (src : list Step) (srcPath destPath : string)
         (owner : llb.ChownOpt).

Definition State : Type := list Step.

(** A plan of the stages above, as a plan with copies. *)
Definition ofState (s : llb.State) : State := map Plain s.

(** [llb.Local]. *)
Definition Local (name : string) : State := [LocalSource name].

(** [llb.Copy] with the option [llb.WithUIDGID]. *)
Record CopyAction : Type := Copy {
  copyInput : State;
  copySrc : string;
  copyDest : string;
  copyOwner : llb.ChownOpt
}.

(** [State.File] on a copy, without custom name. *)
Definition File (s : State) (a : CopyAction) : State :=
  (s ++ [CopyOp (copyInput a) (copySrc a) (copyDest a) (copyOwner a)])%list.

End llbcopy.

(** An element of [g.Copy]. *)
Record CopyInfo : Type := mkCopyInfo {
  Source : string;
  Destination : string
}.

(** The graph with its field [Copy]. *)
Record GraphCopy : Type := mkGraphCopy {
  graph :> Graph;
  Copy : list CopyInfo
}.

Section Stager.

(** [flag.FlagBuildContext]. *)
Variable FlagBuildContext : string.

Definition compileCopy (g : GraphCopy) (root : llbcopy.State)
  : llbcopy.State :=
  if (List.length (Copy g) =? 0)%nat then root
  else
    let result := root in
    fold_left
      (fun result c =>
         llbcopy.File result
           (llbcopy.Copy (llbcopy.Local FlagBuildContext)
                         (Source c) (Destination c)
                         (llb.WithUIDGID (uid g) (gid g))))
      (Copy g) result.

End Stager.

(** ** The account databases the root remap edits

    The commands of the root remap act on [/etc/passwd] and [/etc/group]
    through [sed].  Their effect is stated on the records that [useradd]
    and [groupadd] write, with [sed]'s [s/pat/rep/g] on a pattern without
    special characters as a literal substitution. *)

Module Accounts.

(** A record of [/etc/passwd]. *)
Definition passwdEntry (name : string) (uid gid : Z)
    (comment home shell : string) : string :=
  name ++ ":x:" ++ itoa uid ++ ":" ++ itoa gid ++ ":" ++ comment ++ ":"
  ++ home ++ ":" ++ shell.

(** The record of [/etc/group] for a group without members. *)
Definition groupEntry (name : string) (gid : Z) : string :=
  name ++ ":x:" ++ itoa gid ++ ":".

(** [substituteFrom skip pat rep text]: every occurrence of [pat] is
    replaced by [rep], left to right; [skip] characters of a matched
    occurrence are still to be dropped. *)
Fixpoint substituteFrom (skip : nat) (pat rep text : string) : string :=
  match text with
  | EmptyString => EmptyString
  | String c rest =>
    match skip with
    | S k => substituteFrom k pat rep rest
    | O =>
      if String.prefix pat text
      then rep ++ substituteFrom (String.length pat - 1) pat rep rest
      else String c (substituteFrom 0 pat rep rest)
    end
  end.

Definition substitute (pat rep text : string) : string :=
  substituteFrom 0 pat rep text.

(** The script [s<sep>pat<sep>rep<sep>g] and the command that applies it
    to a file in place. *)
Definition script (sep pat rep : string) : string :=
  "s" ++ sep ++ pat ++ sep ++ rep ++ sep ++ "g".
Definition sedInPlace (script file : string) : string :=
  "sed -i " ++ dq ++ script ++ dq ++ " " ++ file.

End Accounts.


(** ** Derived definitions used in the statements *)

Definition set_SystemPackages (g : Graph) (pkgs : list string) : Graph :=
  mkGraph (OS g) (Language g) (Image g) (CUDA g) (CUDNN g)
          pkgs (Exec g) (PublicKeyPath g) (EnvironmentName g)
          (uid g) (gid g).

(** The one step [compileSystemPackages] adds for a non-empty list. *)
Definition aptStep (g : Graph) : llb.Step :=
  llb.RunShell
    ("bash -c " ++ dq
     ++ "sudo apt-get update && sudo apt-get install -y --no-install-recommends "
     ++ Join (SystemPackages g) " " ++ dq)
    (Some ("apt-get install " ++ Join (SystemPackages g) " "))
    [llb.mkMount "/var/cache/apt" llb.Scratch
       (Some (CacheID g "/var/cache/apt", llb.CacheMountShared));
     llb.mkMount "/var/lib/apt" llb.Scratch
       (Some (CacheID g "/var/lib/apt", llb.CacheMountShared))].

(** The cache identifiers of the mounts of a step, in order. *)
Definition mountCacheID (m : llb.Mount) : option string :=
  option_map fst (llb.mountCache m).
Definition cacheIDs (st : llb.Step) : list (option string) :=
  map mountCacheID (llb.mountsOf st).


(** ** Sample inputs *)

Module Examples.

(** A conda installation that succeeds and leaves the state as it is. *)
Definition installConda_ok (g : Graph) (root : llb.State)
: llb.State * option error := (root, None).

(** A [python] environment for the user 1000:1000. *)
Definition pythonGraph : Graph :=
mkGraph "ubuntu20.04" (mkLanguage "python" (Some "3.9")) None None None
        ["vim"; "git"] ["echo hello"; "ls"] "/home/dev/.ssh/id_ed25519.pub"
        "demo" 1000 1000.

Definition set_Language (g : Graph) (name : string) : Graph :=
mkGraph (OS g) (mkLanguage name (Version (Language g))) (Image g) (CUDA g)
        (CUDNN g) (SystemPackages g) (Exec g) (PublicKeyPath g)
        (EnvironmentName g) (uid g) (gid g).

Definition set_Image (g : Graph) (image : option string) : Graph :=
mkGraph (OS g) (Language g) image (CUDA g) (CUDNN g)
        (SystemPackages g) (Exec g) (PublicKeyPath g) (EnvironmentName g)
        (uid g) (gid g).

Definition set_CUDA (g : Graph) (cuda cudnn : option string) : Graph :=
mkGraph (OS g) (Language g) (Image g) cuda cudnn
        (SystemPackages g) (Exec g) (PublicKeyPath g) (EnvironmentName g)
        (uid g) (gid g).

Definition set_PublicKeyPath (g : Graph) (path : string) : Graph :=
mkGraph (OS g) (Language g) (Image g) (CUDA g) (CUDNN g)
        (SystemPackages g) (Exec g) path (EnvironmentName g)
        (uid g) (gid g).

Definition rGraph : Graph := set_Language pythonGraph "r".
Definition rootGraph : Graph := set_uid pythonGraph 0.
Definition goGraph : Graph := set_Language pythonGraph "go".
Definition customGraph : Graph :=
set_Image pythonGraph (Some "docker.io/library/ubuntu:20.04").
Definition halfCUDAGraph : Graph := set_CUDA pythonGraph (Some "11.2") None.

(** A file system with one readable file, an SSH public key. *)
Definition keyFile : string := "/home/dev/.ssh/id_ed25519.pub".
Definition keyContent : string := "ssh-ed25519 AAAA..." ++ nl.
Definition ReadFile_key (path : string) : string * option error :=
if (path =? keyFile)%string then (keyContent, None)
else (EmptyString,
      Some (ErrLeaf ("open " ++ path ++ ": no such file or directory"))).

(** The default graph of a process that was given no key yet, and a
  graph whose key is the readable file. *)
Definition defaultGraph : Graph :=
set_PublicKeyPath pythonGraph "/root/.config/envd/id_rsa_envd.pub".
Definition keyGraph : Graph := set_PublicKeyPath pythonGraph keyFile.

(** A conda installation that fails. *)
Definition installConda_fail (g : Graph) (root : llb.State)
  : llb.State * option error :=
  (llb.zeroState, Some (ErrLeaf "conda: download failed")).

(** An [r] environment for the user 1000 in the group 500. *)
Definition rMixedGraph : Graph := set_gid rGraph 500.

(** A [python] environment on another OS, without version. *)
Definition debianGraph : Graph :=
  mkGraph "debian11" (mkLanguage "python" None) None None None
          [] [] EmptyString EmptyString 0 0.

(** The sample environment with two files to copy. *)
Definition copyGraph : GraphCopy :=
  mkGraphCopy pythonGraph
    [mkCopyInfo "src/main.py" "/home/envd/main.py";
     mkCopyInfo "data" "/home/envd/data"].

End Examples.

(** ** Lemmas on strings and lists *)

Section StringFacts.

Lemma append_empty_r (s : string) : s ++ EmptyString = s.
Proof. induction s as [|c s IH]; simpl; [reflexivity | now rewrite IH]. Qed.

Lemma append_assoc (s t u : string) : (s ++ t) ++ u = s ++ (t ++ u).
Proof. induction s as [|c s IH]; simpl; [reflexivity | now rewrite IH]. Qed.

Lemma length_append (s t : string) :
  String.length (s ++ t) = (String.length s + String.length t)%nat.
Proof. induction s as [|c s IH]; simpl; [reflexivity | now rewrite IH]. Qed.

Lemma substring_all (s : string) : substring 0 (String.length s) s = s.
Proof. induction s as [|c s IH]; simpl; [reflexivity | now rewrite IH]. Qed.

Lemma substring_append_l (s t : string) :
  substring 0 (String.length s) (s ++ t) = s.
Proof.
  induction s as [|c s IH]; simpl.
  - destruct t; reflexivity.
  - now rewrite IH.
Qed.

Lemma substring_append_r (s t : string) :
  substring (String.length s) (String.length t) (s ++ t) = t.
Proof.
  induction s as [|c s IH]; simpl.
  - apply substring_all.
  - exact IH.
Qed.

(** A string is its first [n] characters followed by the rest. *)
Lemma substring_split (s : string) (n : nat) :
  (n <= String.length s)%nat ->
  substring 0 n s ++ substring n (String.length s - n) s = s.
Proof.
  revert n; induction s as [|c s IH]; intros n Hn; simpl in *.
  - destruct n; [reflexivity | lia].
  - destruct n as [|n]; simpl.
    + now rewrite substring_all.
    + rewrite IH by lia. reflexivity.
Qed.

Lemma append_inj_r (s t u : string) : s ++ u = t ++ u -> s = t.
Proof.
  revert t; induction s as [|c s IH]; intros [|d t] H; simpl in *.
  - reflexivity.
  - apply (f_equal String.length) in H. simpl in H.
    rewrite length_append in H. lia.
  - apply (f_equal String.length) in H. simpl in H.
    rewrite length_append in H. lia.
  - injection H as -> H. f_equal. now apply IH.
Qed.

Lemma HasSuffix_append (s suffix : string) :
  HasSuffix (s ++ suffix) suffix = true.
Proof.
  unfold HasSuffix. rewrite length_append.
  replace (String.length s + String.length suffix - String.length suffix)%nat
    with (String.length s) by lia.
  rewrite substring_append_r, String.eqb_refl, andb_true_r.
  apply Nat.leb_le. lia.
Qed.

Lemma HasSuffix_inv (s suffix : string) :
  HasSuffix s suffix = true ->
  s = substring 0 (String.length s - String.length suffix) s ++ suffix.
Proof.
  unfold HasSuffix. intros H.
  apply andb_true_iff in H as [Hlen Heq].
  apply Nat.leb_le in Hlen. apply String.eqb_eq in Heq.
  pose proof (substring_split s (String.length s - String.length suffix))
    as Hs.
  replace (String.length s - (String.length s - String.length suffix))%nat
    with (String.length suffix) in Hs by lia.
  rewrite Heq in Hs. symmetry. apply Hs. lia.
Qed.

Lemma TrimSuffix_append (s suffix : string) :
  TrimSuffix (s ++ suffix) suffix = s.
Proof.
  unfold TrimSuffix. rewrite HasSuffix_append, length_append.
  replace (String.length s + String.length suffix - String.length suffix)%nat
    with (String.length s) by lia.
  apply substring_append_l.
Qed.

Lemma TrimSuffix_absent (s suffix : string) :
  (forall t, s <> t ++ suffix) -> TrimSuffix s suffix = s.
Proof.
  intros H. unfold TrimSuffix.
  destruct (HasSuffix s suffix) eqn:E; [|reflexivity].
  exfalso. exact (H _ (HasSuffix_inv _ _ E)).
Qed.

(** The loop over a [strings.Builder] writes the pieces in order. *)
Lemma builder_loop (f : string -> string) (l : list string) (sb : string) :
  fold_left (fun sb x => WriteString sb (f x)) l sb
  = sb ++ String.concat EmptyString (map f l).
Proof.
  revert sb; induction l as [|x l IH]; intros sb; simpl.
  - now rewrite append_empty_r.
  - rewrite IH. unfold WriteString. rewrite append_assoc. f_equal.
    destruct l as [|y l]; simpl; [now rewrite append_empty_r | reflexivity].
Qed.

Lemma concat_spaced (l : list string) :
  l <> [] ->
  String.concat EmptyString (map (fun x => " " ++ x) l) = " " ++ Join l " ".
Proof.
  unfold Join. induction l as [|x l IH]; intros Hl; [congruence|].
  destruct l as [|y l]; [reflexivity|].
  change (String.concat EmptyString (map (fun x => " " ++ x) (x :: y :: l)))
    with ((" " ++ x) ++
          String.concat EmptyString (map (fun x => " " ++ x) (y :: l))).
  rewrite IH by discriminate.
  change (String.concat " " (x :: y :: l))
    with (x ++ " " ++ String.concat " " (y :: l)).
  now rewrite append_assoc.
Qed.

End StringFacts.

Section PlanFacts.

(** Running a chain of commands on an [ExecState] appends one shell
    step per command to its root, in order. *)
Lemma run_chain (f : string -> string) (l : list string) (e : llb.ExecState) :
  llb.Root (fold_left (fun run c => llb.RunOn run (f c) None) l e)
  = (llb.Root e ++ map (fun c => llb.RunShell (f c) None []) l)%list.
Proof.
  revert e; induction l as [|c l IH]; intros e; simpl.
  - now rewrite app_nil_r.
  - rewrite IH. unfold llb.RunOn, llb.Run, llb.Root at 1; simpl.
    now rewrite <- app_assoc.
Qed.

End PlanFacts.

(** ** The command runner and the package installer *)

(** The steps [compileRun] adds for a list of commands: nothing for the
    empty list, else the search path and one shell step per command. *)
Lemma compileRun_app (g : Graph) (root : llb.State) :
  compileRun g root =
  (root ++
   match Exec g with
   | [] => []
   | _ :: _ =>
     llb.SetEnv "PATH" pathEnv
     :: map (fun c => llb.RunShell (bashC c) None []) (Exec g)
   end)%list.
Proof.
  unfold compileRun.
  destruct (Exec g) as [|c0 [|c1 l]]; simpl.
  - now rewrite app_nil_r.
  - unfold llb.Root, llb.Run, llb.AddEnv, llb.Shlex; simpl.
    now rewrite <- app_assoc.
  - unfold llb.Shlex.
    rewrite (run_chain bashC l). unfold llb.RunOn, llb.Root, llb.Run, llb.AddEnv.
    simpl. now rewrite <- !app_assoc.
Qed.

(** C5: the command runner adds the [PATH] step, with the fixed search
    path, and shell steps exactly when [exec] is not empty; it then adds
    one shell step per entry of [exec], chained in the order of [exec]. *)
Theorem compileRun_steps (g : Graph) (root : llb.State) :
  exists added : list llb.Step,
    compileRun g root = (root ++ added)%list /\
    ((exists st, In st added /\ (llb.isSetEnv st || llb.isRunShell st) = true)
     <-> Exec g <> []) /\
    (Exec g = [] -> added = []) /\
    (Exec g <> [] ->
     added =
     llb.SetEnv "PATH"
       "$PATH:/usr/local/sbin:/usr/local/bin:/usr/sbin:/usr/bin:/sbin:/bin:/opt/conda/bin:/usr/local/julia/bin:/opt/conda/envs/envd/bin"
     :: map (fun c => llb.RunShell ("bash -c " ++ dq ++ c ++ dq) None [])
            (Exec g)).
Proof.
  rewrite compileRun_app.
  destruct (Exec g) as [|c0 l] eqn:E.
  - exists []. split; [reflexivity|]. split; [|split].
    + split; [intros [st [[] _]] | congruence].
    + reflexivity.
    + congruence.
  - eexists. split; [reflexivity|]. split; [|split].
    + split; [discriminate|]. intros _.
      exists (llb.SetEnv "PATH" pathEnv). split; [now left | reflexivity].
    + discriminate.
    + reflexivity.
Qed.

Lemma compileSystemPackages_app (g : Graph) (root : llb.State) :
  compileSystemPackages g root =
  match SystemPackages g with
  | [] => root
  | _ :: _ => (root ++ [aptStep g])%list
  end.
Proof.
  unfold compileSystemPackages, aptStep.
  destruct (SystemPackages g) as [|p l] eqn:E; [reflexivity|].
  cbn [List.length Nat.eqb].
  rewrite (builder_loop (fun pkg => " " ++ pkg)).
  rewrite concat_spaced by discriminate.
  unfold llb.Root, llb.AddMount, llb.Run, llb.Shlex, llb.WithCustomName,
    llb.AsPersistentCacheDir, WriteString, bashC; cbn [llb.execInput
    llb.execCmd llb.execName llb.execMounts app].
  repeat f_equal.
Qed.

(** C6: the package installer returns the state it is given when
    [systemPackages] is empty; otherwise it adds exactly one shell step,
    which updates the package index and installs, without prompting,
    every package in the order of the list, with two persistent shared
    cache mounts, at [/var/cache/apt] and at [/var/lib/apt].  For the
    packages [vim] and [git] the command names [vim], then [git]. *)
Theorem compileSystemPackages_step (g : Graph) (root : llb.State) :
  compileSystemPackages g root =
  match SystemPackages g with
  | [] => root
  | _ :: _ =>
    app root
     [llb.RunShell
        ("bash -c " ++ dq
         ++ "sudo apt-get update && sudo apt-get install -y --no-install-recommends "
         ++ String.concat " " (SystemPackages g) ++ dq)
        (Some ("apt-get install " ++ String.concat " " (SystemPackages g)))
        [llb.mkMount "/var/cache/apt" []
           (Some (CacheID g "/var/cache/apt", llb.CacheMountShared));
         llb.mkMount "/var/lib/apt" []
           (Some (CacheID g "/var/lib/apt", llb.CacheMountShared))]]
  end
  /\
  compileSystemPackages (set_SystemPackages g ["vim"; "git"]) root =
  app root
   [llb.RunShell
      ("bash -c " ++ dq
       ++ "sudo apt-get update && sudo apt-get install -y --no-install-recommends vim git"
       ++ dq)
      (Some "apt-get install vim git")
      [llb.mkMount "/var/cache/apt" []
         (Some (CacheID g "/var/cache/apt", llb.CacheMountShared));
       llb.mkMount "/var/lib/apt" []
         (Some (CacheID g "/var/lib/apt", llb.CacheMountShared))]].
Proof.
  split.
  - apply compileSystemPackages_app.
  - rewrite compileSystemPackages_app. reflexivity.
Qed.

Lemma CacheID_inj (g : Graph) (d1 d2 : string) :
  CacheID g d1 = CacheID g d2 -> d1 = d2.
Proof. unfold CacheID. apply append_inj_r. Qed.

(** C7: the cache identifiers of the two mounts of the install step are
    determined by the directory and the identity of the environment: two
    compilations, from any two states, of graphs with one identity give
    the same two identifiers, and the identifier of the cache directory
    differs from that of the metadata directory. *)
Theorem compileSystemPackages_cache_ids
    (g1 g2 : Graph) (root1 root2 : llb.State) :
  EnvironmentName g1 = EnvironmentName g2 ->
  SystemPackages g1 <> [] ->
  SystemPackages g2 <> [] ->
  exists (step1 step2 : llb.Step) (idCache idLib : string),
    compileSystemPackages g1 root1 = (root1 ++ [step1])%list /\
    compileSystemPackages g2 root2 = (root2 ++ [step2])%list /\
    cacheIDs step1 = [Some idCache; Some idLib] /\
    cacheIDs step2 = [Some idCache; Some idLib] /\
    idCache = CacheID g1 "/var/cache/apt" /\
    idLib = CacheID g1 "/var/lib/apt" /\
    idCache <> idLib.
Proof.
  intros Hid H1 H2.
  exists (aptStep g1), (aptStep g2),
    (CacheID g1 "/var/cache/apt"), (CacheID g1 "/var/lib/apt").
  rewrite !compileSystemPackages_app.
  destruct (SystemPackages g1) as [|p1 l1] eqn:E1; [congruence|].
  destruct (SystemPackages g2) as [|p2 l2] eqn:E2; [congruence|].
  repeat split.
  - unfold cacheIDs, aptStep, CacheID; simpl. now rewrite Hid.
  - intros Heq. apply CacheID_inj in Heq. discriminate.
Qed.

(** ** The credential installer *)

(** The stage fails exactly when the file at the path of the default
    graph cannot be read, whatever graph is compiled. *)
Lemma copySSHKey_error (DefaultGraph : Graph)
    (ReadFile : string -> string * option error) (keysPath : string)
    (g : Graph) (root : llb.State) :
  (exists e, copySSHKey DefaultGraph ReadFile keysPath g root = Err e)
  <-> snd (ReadFile (PublicKeyPath DefaultGraph)) <> None.
Proof.
  unfold copySSHKey.
  destruct (ReadFile (PublicKeyPath DefaultGraph)) as [bdat [e|]]; simpl.
  - split; [discriminate | intros _; eauto].
  - split; [intros [e He]; discriminate | congruence].
Qed.

Lemma copySSHKey_ok (DefaultGraph : Graph)
    (ReadFile : string -> string * option error) (keysPath : string)
    (g : Graph) (root : llb.State) (content : string) :
  ReadFile (PublicKeyPath DefaultGraph) = (content, None) ->
  copySSHKey DefaultGraph ReadFile keysPath g root =
  Ok (app root
        [llb.FileOp
           (llb.Mkdir "/var/envd" 493 true (llb.WithUIDGID (uid g) (gid g)))
           None;
         llb.FileOp
           (llb.Mkfile keysPath 420 (TrimSuffix content nl ++ " envd")
                       (llb.WithUIDGID (uid g) (gid g)))
           (Some "install ssh keys")]).
Proof.
  intros H. unfold copySSHKey. rewrite H.
  unfold llb.File, llb.WithCustomName. now rewrite <- app_assoc.
Qed.

(** C8: when the credential file is read, the stage creates [/var/envd]
    and writes, at the authorized-keys path, the content of the file
    without one trailing line feed, followed by [" envd"]: a content
    [s] followed by a line feed gives [s envd], and a content that
    does not end in a line feed is kept whole. *)
Theorem copySSHKey_payload (DefaultGraph : Graph)
    (ReadFile : string -> string * option error) (keysPath : string)
    (g : Graph) (root : llb.State) (content : string) :
  ReadFile (PublicKeyPath DefaultGraph) = (content, None) ->
  exists payload : string,
    copySSHKey DefaultGraph ReadFile keysPath g root =
    Ok (app root
          [llb.FileOp
             (llb.Mkdir "/var/envd" 493 true (llb.WithUIDGID (uid g) (gid g)))
             None;
           llb.FileOp
             (llb.Mkfile keysPath 420 payload
                         (llb.WithUIDGID (uid g) (gid g)))
             (Some "install ssh keys")]) /\
    (forall s, content = s ++ nl -> payload = s ++ " envd") /\
    ((forall s, content <> s ++ nl) -> payload = content ++ " envd").
Proof.
  intros H. exists (TrimSuffix content nl ++ " envd").
  split; [now apply copySSHKey_ok|]. split.
  - intros s ->. now rewrite TrimSuffix_append.
  - intros Hno. now rewrite TrimSuffix_absent.
Qed.

(** C9, on the code: the stage reads the file named by the package-level
    default graph, not the one named by the graph it compiles.  With the
    key of the compiled graph readable and that of the default graph
    missing the stage fails; with the two graphs exchanged it succeeds
    although the key of the compiled graph is missing. *)
Theorem copySSHKey_reads_DefaultGraph :
  snd (Examples.ReadFile_key (PublicKeyPath Examples.keyGraph)) = None /\
  copySSHKey Examples.defaultGraph Examples.ReadFile_key
             "/var/envd/authorized_keys" Examples.keyGraph [] =
  Err (ErrWrap
         (ErrLeaf
            "open /root/.config/envd/id_rsa_envd.pub: no such file or directory")
         "Cannot read public SSH key") /\
  snd (Examples.ReadFile_key (PublicKeyPath Examples.defaultGraph)) <> None /\
  copySSHKey Examples.keyGraph Examples.ReadFile_key
             "/var/envd/authorized_keys" Examples.defaultGraph [] =
  Ok [llb.FileOp
        (llb.Mkdir "/var/envd" 493 true (llb.WithUIDGID 1000 1000)) None;
      llb.FileOp
        (llb.Mkfile "/var/envd/authorized_keys" 420 "ssh-ed25519 AAAA... envd"
                    (llb.WithUIDGID 1000 1000))
        (Some "install ssh keys")].
Proof.
  repeat split; try reflexivity. discriminate.
Qed.

(** ** Base compilation *)

Section Base.

Variable dockerOrganization : string.
Variable gitTag : string.
Variable installConda : Graph -> llb.State -> llb.State * option error.

Local Abbreviation base_image := (compileBase_image dockerOrganization gitTag).
Local Abbreviation cuda_image := (compileCUDAPackages dockerOrganization gitTag).
Local Abbreviation compile :=
  (compileBase dockerOrganization gitTag installConda).

(** The steps of the root remap, after the conda stage. *)
Lemma compileBase_user_root (g : Graph) (condaStage : llb.State) :
  uid g = 0 ->
  llb.Root (compileBase_user g condaStage) =
  app condaStage
    [llb.RunShell "groupadd -g 1001 envd"
       (Some "[internal] still create group envd for root context") [];
     llb.RunShell
       ("useradd -p " ++ dq ++ dq ++ " -u 1001 -g envd -s /bin/sh -m envd")
       (Some "[internal] still create user envd for root context") [];
     llb.RunShell "usermod -s /bin/sh root"
       (Some "[internal] set root default shell to /bin/sh") [];
     llb.RunShell
       ("sed -i " ++ dq ++ "s/envd:x:1001:1001/envd:x:0:0/g" ++ dq
        ++ " /etc/passwd")
       (Some "[internal] set envd uid to 0 as root") [];
     llb.RunShell
       ("sed -i " ++ dq ++ "s./root./home/envd.g" ++ dq ++ " /etc/passwd")
       (Some "[internal] set root home dir to /home/envd") [];
     llb.RunShell
       ("sed -i " ++ dq ++ "s/envd:x:1001/envd:x:0/g" ++ dq ++ " /etc/group")
       (Some "[internal] set envd group to 0 as root group") [];
     llb.RunShell "chown -R root:root /opt/conda"
       (Some "[internal] configure user permissions") []].
Proof.
  intros Hu. unfold compileBase_user. rewrite Hu. cbn [Z.eqb].
  unfold llb.RunOn, llb.Run, llb.Root, llb.Shlex, llb.WithCustomName.
  cbn [llb.execInput llb.execCmd llb.execName llb.execMounts].
  rewrite <- !app_assoc. reflexivity.
Qed.

(** The steps of the ordinary account, after the conda stage. *)
Lemma compileBase_user_account (g : Graph) (condaStage : llb.State) :
  uid g <> 0 ->
  llb.Root (compileBase_user g condaStage) =
  app condaStage
    [llb.RunShell ("groupadd -g " ++ itoa (gid g) ++ " envd")
       (Some "[internal] create user group envd") [];
     llb.RunShell
       ("useradd -p " ++ dq ++ dq ++ " -u " ++ itoa (uid g)
        ++ " -g envd -s /bin/sh -m envd")
       (Some "[internal] create user envd") [];
     llb.RunShell "adduser envd sudo"
       (Some "[internal] add user envd to sudoers") [];
     llb.RunShell "chown -R envd:envd /usr/local/lib"
       (Some "[internal] configure user permissions") [];
     llb.RunShell "chown -R envd:envd /opt/conda"
       (Some "[internal] configure user permissions") []].
Proof.
  intros Hu. unfold compileBase_user.
  destruct (uid g =? 0) eqn:E; [apply Z.eqb_eq in E; contradiction|].
  unfold llb.RunOn, llb.Run, llb.Root, llb.Shlex, llb.WithCustomName.
  cbn [llb.execInput llb.execCmd llb.execName llb.execMounts].
  rewrite <- !app_assoc. reflexivity.
Qed.

(** Without image override, [compileBase] installs conda on the chosen
    base and provisions the account on the conda stage. *)
Lemma compileBase_no_image (g g' : Graph) (base : result llb.State) :
  Image g = None ->
  base_image g = (g', base) ->
  compile g =
  (g',
   b <- base ;;
   match installConda g' b with
   | (_, Some err) => Err (ErrWrap err "failed to install conda")
   | (condaStage, None) =>
     Ok (llb.User "envd" (llb.Root (compileBase_user g' condaStage)))
   end).
Proof.
  intros Hi Hb. unfold compileBase. rewrite Hi, Hb.
  destruct base as [b| |]; reflexivity.
Qed.

(** The base selection changes identifiers only from 1000 to 1001. *)
Lemma compileBase_image_uid0 (g g' : Graph) (base : result llb.State) :
  uid g = 0 -> base_image g = (g', base) -> uid g' = 0.
Proof.
  intros Hu. unfold compileBase_image.
  destruct (isNil (CUDA g) && isNil (CUDNN g)).
  - destruct (Name (Language g) =? "r")%string.
    + destruct (gid g =? 1000); cbn [uid set_gid]; rewrite Hu; cbn [Z.eqb];
        intros H; inversion H; subst; assumption.
    + destruct (Name (Language g) =? "python")%string;
        [|destruct (Name (Language g) =? "julia")%string];
        intros H; inversion H; subst; assumption.
  - intros H; inversion H; subst; assumption.
Qed.

(** The accelerator image is built exactly when both versions are set. *)
Lemma compileCUDAPackages_cases (g : Graph) :
  cuda_image g =
  match CUDA g, CUDNN g with
  | Some cuda, Some cudnn =>
    Ok [llb.SetBaseImage
          ("docker.io/" ++ dockerOrganization ++ "/python:3.9-" ++ OS g
           ++ "-cuda" ++ cuda ++ "-cudnn" ++ cudnn ++ "-envd-" ++ gitTag)]
  | _, _ => NilDeref
  end.
Proof.
  unfold compileCUDAPackages.
  destruct (CUDA g), (CUDNN g); reflexivity.
Qed.

(** C1: with [uid] 0 and no image override, once the base image is
    chosen and conda is installed, base compilation adds to the conda
    stage, in this order: the group [envd] with gid 1001, the user [envd]
    with uid 1001, the shell of root, the substitution of 0 for the uid
    and gid 1001 in [/etc/passwd], the move of the home of root to
    [/home/envd] in [/etc/passwd], the substitution of 0 for the gid 1001
    in [/etc/group], the change of owner of [/opt/conda] to root; then it
    sets the user [envd].  Applied to the records that the two creation
    commands write, the substitutions leave the uid and the gid of
    [envd] at 0. *)
Theorem compileBase_root_remap
    (g g' : Graph) (base condaStage : llb.State) :
  uid g = 0 ->
  Image g = None ->
  base_image g = (g', Ok base) ->
  installConda g' base = (condaStage, None) ->
  compile g =
  (g',
   Ok (app condaStage
         [llb.RunShell "groupadd -g 1001 envd"
            (Some "[internal] still create group envd for root context") [];
          llb.RunShell
            ("useradd -p " ++ dq ++ dq
             ++ " -u 1001 -g envd -s /bin/sh -m envd")
            (Some "[internal] still create user envd for root context") [];
          llb.RunShell "usermod -s /bin/sh root"
            (Some "[internal] set root default shell to /bin/sh") [];
          llb.RunShell
            (Accounts.sedInPlace
               (Accounts.script "/" "envd:x:1001:1001" "envd:x:0:0")
               "/etc/passwd")
            (Some "[internal] set envd uid to 0 as root") [];
          llb.RunShell
            (Accounts.sedInPlace
               (Accounts.script "." "/root" "/home/envd") "/etc/passwd")
            (Some "[internal] set root home dir to /home/envd") [];
          llb.RunShell
            (Accounts.sedInPlace
               (Accounts.script "/" "envd:x:1001" "envd:x:0") "/etc/group")
            (Some "[internal] set envd group to 0 as root group") [];
          llb.RunShell "chown -R root:root /opt/conda"
            (Some "[internal] configure user permissions") [];
          llb.SetUser "envd"]))
  /\ Accounts.sedInPlace
       (Accounts.script "/" "envd:x:1001:1001" "envd:x:0:0") "/etc/passwd"
     = "sed -i " ++ dq ++ "s/envd:x:1001:1001/envd:x:0:0/g" ++ dq
       ++ " /etc/passwd"
  /\ Accounts.sedInPlace
       (Accounts.script "." "/root" "/home/envd") "/etc/passwd"
     = "sed -i " ++ dq ++ "s./root./home/envd.g" ++ dq ++ " /etc/passwd"
  /\ Accounts.sedInPlace
       (Accounts.script "/" "envd:x:1001" "envd:x:0") "/etc/group"
     = "sed -i " ++ dq ++ "s/envd:x:1001/envd:x:0/g" ++ dq ++ " /etc/group"
  /\ Accounts.substitute "/root" "/home/envd"
       (Accounts.substitute "envd:x:1001:1001" "envd:x:0:0"
          (Accounts.passwdEntry "envd" 1001 1001 EmptyString
                                "/home/envd" "/bin/sh"))
     = Accounts.passwdEntry "envd" 0 0 EmptyString "/home/envd" "/bin/sh"
  /\ Accounts.substitute "/root" "/home/envd"
       (Accounts.substitute "envd:x:1001:1001" "envd:x:0:0"
          (Accounts.passwdEntry "root" 0 0 "root" "/root" "/bin/sh"))
     = Accounts.passwdEntry "root" 0 0 "root" "/home/envd" "/bin/sh"
  /\ Accounts.substitute "envd:x:1001" "envd:x:0"
       (Accounts.groupEntry "envd" 1001)
     = Accounts.groupEntry "envd" 0.
Proof.
  intros Hu Hi Hb Hc.
  split; [|repeat split].
  rewrite (compileBase_no_image g g' (Ok base) Hi Hb).
  cbn [bind]. rewrite Hc.
  rewrite (compileBase_user_root g' condaStage
             (compileBase_image_uid0 g g' (Ok base) Hu Hb)).
  unfold llb.User. rewrite <- app_assoc. reflexivity.
Qed.

(** C2: with an image override, base compilation returns that image and
    nothing else: the plan is the one step that sets the image, without
    any provisioning step, and the graph, with its [uid] and [gid], is
    left as it was given. *)
Theorem compileBase_image_override (g : Graph) (image : string) :
  Image g = Some image ->
  compile g = (g, Ok [llb.SetBaseImage image])
  /\ uid (fst (compile g)) = uid g
  /\ gid (fst (compile g)) = gid g.
Proof.
  intros Hi. unfold compileBase. rewrite Hi. repeat split.
Qed.

(** C3, as the code has it: for a language other than [r], [python] and
    [julia], without image override and without accelerator, base
    compilation raises no error of its own.  It chooses no image and
    leaves the graph as it is; it fails exactly when the conda
    installation on the empty state fails, with that error wrapped, and
    otherwise returns the account steps on the conda stage. *)
Theorem compileBase_unmapped_language (g : Graph) :
  Image g = None ->
  CUDA g = None ->
  CUDNN g = None ->
  Name (Language g) <> "r" ->
  Name (Language g) <> "python" ->
  Name (Language g) <> "julia" ->
  base_image g = (g, Ok llb.zeroState)
  /\ compile g =
     (g,
      match installConda g llb.zeroState with
      | (_, Some err) => Err (ErrWrap err "failed to install conda")
      | (condaStage, None) =>
        Ok (llb.User "envd" (llb.Root (compileBase_user g condaStage)))
      end).
Proof.
  intros Hi Hc Hd Hr Hp Hj.
  assert (Hb : base_image g = (g, Ok llb.zeroState)).
  { unfold compileBase_image. rewrite Hc, Hd. cbn [isNil andb].
    apply String.eqb_neq in Hr, Hp, Hj. now rewrite Hr, Hp, Hj. }
  split; [exact Hb|].
  now rewrite (compileBase_no_image g g (Ok llb.zeroState) Hi Hb).
Qed.

(** C4: for the [r] base image with [uid] and [gid] 1000, both become
    1001 before the account is provisioned: conda is installed for the
    graph with 1001, the group and the user are created with 1001, and
    the graph left behind holds 1001.  Outside the [r] base image (an
    image override, an accelerator, another language) base compilation
    leaves the graph as it was given. *)
Theorem compileBase_r_identifiers (g : Graph) (condaStage : llb.State) :
  Image g = None ->
  CUDA g = None ->
  CUDNN g = None ->
  Name (Language g) = "r" ->
  uid g = 1000 ->
  gid g = 1000 ->
  installConda (set_uid (set_gid g 1001) 1001)
    [llb.SetBaseImage
       ("docker.io/" ++ dockerOrganization ++ "/r-base:4.2-envd-" ++ gitTag)]
  = (condaStage, None) ->
  compile g =
  (set_uid (set_gid g 1001) 1001,
   Ok (app condaStage
         [llb.RunShell "groupadd -g 1001 envd"
            (Some "[internal] create user group envd") [];
          llb.RunShell
            ("useradd -p " ++ dq ++ dq
             ++ " -u 1001 -g envd -s /bin/sh -m envd")
            (Some "[internal] create user envd") [];
          llb.RunShell "adduser envd sudo"
            (Some "[internal] add user envd to sudoers") [];
          llb.RunShell "chown -R envd:envd /usr/local/lib"
            (Some "[internal] configure user permissions") [];
          llb.RunShell "chown -R envd:envd /opt/conda"
            (Some "[internal] configure user permissions") [];
          llb.SetUser "envd"]))
  /\ (forall h : Graph,
        Image h <> None \/ CUDA h <> None \/ CUDNN h <> None
        \/ Name (Language h) <> "r" ->
        fst (compile h) = h).
Proof.
  intros Hi Hc Hd Hr Hu Hg Hconda. split.
  - assert (Hb : base_image g =
                 (set_uid (set_gid g 1001) 1001,
                  Ok [llb.SetBaseImage
                        ("docker.io/" ++ dockerOrganization
                         ++ "/r-base:4.2-envd-" ++ gitTag)])).
    { unfold compileBase_image. rewrite Hc, Hd, Hr, Hg. cbn [isNil andb].
      cbn [String.eqb Ascii.eqb Bool.eqb Z.eqb Pos.eqb set_gid uid].
      rewrite Hu. reflexivity. }
    rewrite (compileBase_no_image g _ _ Hi Hb). cbn [bind]. rewrite Hconda.
    rewrite compileBase_user_account by (cbn [set_uid uid]; lia).
    unfold llb.User. rewrite <- app_assoc. reflexivity.
  - intros h Hh. unfold compileBase.
    destruct (Image h) as [image|] eqn:Ei; [reflexivity|].
    assert (Hb : fst (base_image h) = h).
    { unfold compileBase_image.
      destruct (CUDA h) as [cuda|] eqn:Ec; [reflexivity|].
      destruct (CUDNN h) as [cudnn|] eqn:Ed; [reflexivity|].
      cbn [isNil andb].
      destruct (Name (Language h) =? "r")%string eqn:Er.
      - apply String.eqb_eq in Er.
        destruct Hh as [H|[H|[H|H]]]; congruence.
      - destruct (Name (Language h) =? "python")%string;
          [|destruct (Name (Language h) =? "julia")%string]; reflexivity. }
    destruct (base_image h) as [h' b]. simpl in Hb. now subst h'.
Qed.

(** C10: without image override, as soon as one accelerator version is
    set base compilation takes the accelerator branch, which reads both
    versions to name the image; so it stops on a nil pointer exactly
    when one version is set and the other is not, and with both set the
    image carries both. *)
Theorem compileBase_nil_dereference (g : Graph) :
  Image g = None ->
  (CUDA g <> None \/ CUDNN g <> None -> base_image g = (g, cuda_image g))
  /\ (cuda_image g = NilDeref <-> CUDA g = None \/ CUDNN g = None)
  /\ (forall cuda cudnn,
        CUDA g = Some cuda -> CUDNN g = Some cudnn ->
        cuda_image g =
        Ok [llb.SetBaseImage
              ("docker.io/" ++ dockerOrganization ++ "/python:3.9-" ++ OS g
               ++ "-cuda" ++ cuda ++ "-cudnn" ++ cudnn ++ "-envd-" ++ gitTag)])
  /\ (snd (compile g) = NilDeref
      <-> ~ (CUDA g = None <-> CUDNN g = None)).
Proof.
  intros Hi. split; [|split; [|split]].
  - intros H. unfold compileBase_image.
    destruct (CUDA g), (CUDNN g); try reflexivity.
    destruct H; congruence.
  - rewrite compileCUDAPackages_cases.
    destruct (CUDA g), (CUDNN g); split; intros H;
      try discriminate; try reflexivity; auto.
    destruct H; discriminate.
  - intros cuda cudnn Hc Hd. rewrite compileCUDAPackages_cases.
    now rewrite Hc, Hd.
  - destruct (base_image g) as [g' base] eqn:Hb.
    rewrite (compileBase_no_image g g' base Hi Hb). cbn [snd].
    revert Hb. unfold compileBase_image.
    rewrite compileCUDAPackages_cases.
    destruct (CUDA g) as [cuda|], (CUDNN g) as [cudnn|]; cbn [isNil andb].
    + intros Hb; inversion Hb; subst. cbn [bind].
      destruct (installConda g' _) as [st [e|]].
      all: split; [discriminate|]; intros H; exfalso; apply H;
        split; discriminate.
    + intros Hb; inversion Hb; subst. cbn [bind].
      split; [|reflexivity]. intros _ [_ H]. discriminate (H eq_refl).
    + intros Hb; inversion Hb; subst. cbn [bind].
      split; [|reflexivity]. intros _ [H _]. discriminate (H eq_refl).
    + intros Hb.
      assert (Hok : exists b, base = Ok b).
      { destruct (Name (Language g) =? "r")%string;
          [|destruct (Name (Language g) =? "python")%string;
            [|destruct (Name (Language g) =? "julia")%string]];
          inversion Hb; eauto. }
      destruct Hok as [b ->]. cbn [bind].
      destruct (installConda g' b) as [st [e|]].
      all: split; [discriminate|]; intros H; exfalso; apply H;
        split; reflexivity.
Qed.

End Base.

(** ** The theorems at sample inputs *)

(** The root remap for the sample [python] environment compiled as root. *)
Lemma compileBase_root_remap_witness :
  uid Examples.rootGraph = 0 /\
  Image Examples.rootGraph = None /\
  compileBase "tensorchord" "v0.3.0" Examples.installConda_ok
              Examples.rootGraph =
  (Examples.rootGraph,
   Ok [llb.SetBaseImage
         "docker.io/tensorchord/python:3.9-ubuntu20.04-envd-v0.3.0";
       llb.RunShell "groupadd -g 1001 envd"
         (Some "[internal] still create group envd for root context") [];
       llb.RunShell
         ("useradd -p " ++ dq ++ dq ++ " -u 1001 -g envd -s /bin/sh -m envd")
         (Some "[internal] still create user envd for root context") [];
       llb.RunShell "usermod -s /bin/sh root"
         (Some "[internal] set root default shell to /bin/sh") [];
       llb.RunShell
         ("sed -i " ++ dq ++ "s/envd:x:1001:1001/envd:x:0:0/g" ++ dq
          ++ " /etc/passwd")
         (Some "[internal] set envd uid to 0 as root") [];
       llb.RunShell
         ("sed -i " ++ dq ++ "s./root./home/envd.g" ++ dq ++ " /etc/passwd")
         (Some "[internal] set root home dir to /home/envd") [];
       llb.RunShell
         ("sed -i " ++ dq ++ "s/envd:x:1001/envd:x:0/g" ++ dq
          ++ " /etc/group")
         (Some "[internal] set envd group to 0 as root group") [];
       llb.RunShell "chown -R root:root /opt/conda"
         (Some "[internal] configure user permissions") [];
       llb.SetUser "envd"]).
Proof.
  split; [reflexivity|]. split; [reflexivity|].
  exact (proj1 (compileBase_root_remap "tensorchord" "v0.3.0"
                  Examples.installConda_ok Examples.rootGraph
                  Examples.rootGraph
                  [llb.SetBaseImage
                     "docker.io/tensorchord/python:3.9-ubuntu20.04-envd-v0.3.0"]
                  [llb.SetBaseImage
                     "docker.io/tensorchord/python:3.9-ubuntu20.04-envd-v0.3.0"]
                  eq_refl eq_refl eq_refl eq_refl)).
Defined.

(** The image override of the sample environment. *)
Lemma compileBase_image_override_witness :
  Image Examples.customGraph = Some "docker.io/library/ubuntu:20.04" /\
  compileBase "tensorchord" "v0.3.0" Examples.installConda_ok
              Examples.customGraph =
  (Examples.customGraph,
   Ok [llb.SetBaseImage "docker.io/library/ubuntu:20.04"]).
Proof.
  split; [reflexivity|].
  exact (proj1 (compileBase_image_override "tensorchord" "v0.3.0"
                  Examples.installConda_ok Examples.customGraph
                  "docker.io/library/ubuntu:20.04" eq_refl)).
Defined.

(** C3, as stated, fails: for the language [go], without image override
    and without accelerator, base compilation returns a plan, not an
    error. *)
Lemma compileBase_unmapped_language_no_error :
  Image Examples.goGraph = None /\
  CUDA Examples.goGraph = None /\
  CUDNN Examples.goGraph = None /\
  Name (Language Examples.goGraph) = "go" /\
  snd (compileBase "tensorchord" "v0.3.0" Examples.installConda_ok
                   Examples.goGraph) =
  Ok [llb.RunShell "groupadd -g 1000 envd"
        (Some "[internal] create user group envd") [];
      llb.RunShell
        ("useradd -p " ++ dq ++ dq ++ " -u 1000 -g envd -s /bin/sh -m envd")
        (Some "[internal] create user envd") [];
      llb.RunShell "adduser envd sudo"
        (Some "[internal] add user envd to sudoers") [];
      llb.RunShell "chown -R envd:envd /usr/local/lib"
        (Some "[internal] configure user permissions") [];
      llb.RunShell "chown -R envd:envd /opt/conda"
        (Some "[internal] configure user permissions") [];
      llb.SetUser "envd"] /\
  (forall e : error,
      snd (compileBase "tensorchord" "v0.3.0" Examples.installConda_ok
                       Examples.goGraph) <> Err e).
Proof.
  repeat split. intros e H. discriminate H.
Qed.

(** The language [go] in the sample environment. *)
Lemma compileBase_unmapped_language_witness :
  Name (Language Examples.goGraph) <> "r" /\
  Name (Language Examples.goGraph) <> "python" /\
  Name (Language Examples.goGraph) <> "julia" /\
  compileBase_image "tensorchord" "v0.3.0" Examples.goGraph =
  (Examples.goGraph, Ok llb.zeroState).
Proof.
  split; [discriminate|]. split; [discriminate|]. split; [discriminate|].
  exact (proj1 (compileBase_unmapped_language "tensorchord" "v0.3.0"
                  Examples.installConda_ok Examples.goGraph
                  eq_refl eq_refl eq_refl
                  ltac:(discriminate) ltac:(discriminate)
                  ltac:(discriminate))).
Defined.

(** The [r] environment of the user 1000:1000. *)
Lemma compileBase_r_identifiers_witness :
  Name (Language Examples.rGraph) = "r" /\
  uid Examples.rGraph = 1000 /\
  gid Examples.rGraph = 1000 /\
  compileBase "tensorchord" "v0.3.0" Examples.installConda_ok Examples.rGraph =
  (set_uid (set_gid Examples.rGraph 1001) 1001,
   Ok [llb.SetBaseImage "docker.io/tensorchord/r-base:4.2-envd-v0.3.0";
       llb.RunShell "groupadd -g 1001 envd"
         (Some "[internal] create user group envd") [];
       llb.RunShell
         ("useradd -p " ++ dq ++ dq ++ " -u 1001 -g envd -s /bin/sh -m envd")
         (Some "[internal] create user envd") [];
       llb.RunShell "adduser envd sudo"
         (Some "[internal] add user envd to sudoers") [];
       llb.RunShell "chown -R envd:envd /usr/local/lib"
         (Some "[internal] configure user permissions") [];
       llb.RunShell "chown -R envd:envd /opt/conda"
         (Some "[internal] configure user permissions") [];
       llb.SetUser "envd"]).
Proof.
  split; [reflexivity|]. split; [reflexivity|]. split; [reflexivity|].
  exact (proj1 (compileBase_r_identifiers "tensorchord" "v0.3.0"
                  Examples.installConda_ok Examples.rGraph
                  [llb.SetBaseImage
                     "docker.io/tensorchord/r-base:4.2-envd-v0.3.0"]
                  eq_refl eq_refl eq_refl eq_refl eq_refl eq_refl eq_refl)).
Defined.

(** Two compilations of the sample packages, from two states. *)
Lemma compileSystemPackages_cache_ids_witness :
  SystemPackages Examples.pythonGraph <> [] /\
  exists (step1 step2 : llb.Step) (idCache idLib : string),
    compileSystemPackages Examples.pythonGraph [] = [step1] /\
    compileSystemPackages Examples.pythonGraph
      [llb.SetBaseImage "docker.io/library/ubuntu:20.04"] =
    [llb.SetBaseImage "docker.io/library/ubuntu:20.04"; step2] /\
    cacheIDs step1 = [Some idCache; Some idLib] /\
    cacheIDs step2 = [Some idCache; Some idLib] /\
    idCache = CacheID Examples.pythonGraph "/var/cache/apt" /\
    idLib = CacheID Examples.pythonGraph "/var/lib/apt" /\
    idCache <> idLib.
Proof.
  split; [discriminate|].
  exact (compileSystemPackages_cache_ids
           Examples.pythonGraph Examples.pythonGraph
           [] [llb.SetBaseImage "docker.io/library/ubuntu:20.04"]
           eq_refl ltac:(discriminate) ltac:(discriminate)).
Defined.

(** The key [ssh-ed25519 AAAA...] followed by a line feed. *)
Lemma copySSHKey_payload_witness :
  Examples.ReadFile_key (PublicKeyPath Examples.keyGraph) =
  ("ssh-ed25519 AAAA..." ++ nl, None) /\
  exists payload : string,
    copySSHKey Examples.keyGraph Examples.ReadFile_key
               "/var/envd/authorized_keys" Examples.keyGraph [] =
    Ok [llb.FileOp
          (llb.Mkdir "/var/envd" 493 true (llb.WithUIDGID 1000 1000)) None;
        llb.FileOp
          (llb.Mkfile "/var/envd/authorized_keys" 420 payload
                      (llb.WithUIDGID 1000 1000))
          (Some "install ssh keys")] /\
    payload = "ssh-ed25519 AAAA... envd".
Proof.
  split; [reflexivity|].
  destruct (copySSHKey_payload Examples.keyGraph Examples.ReadFile_key
              "/var/envd/authorized_keys" Examples.keyGraph []
              ("ssh-ed25519 AAAA..." ++ nl) eq_refl)
    as [payload [Hplan [Hnl _]]].
  exists payload. split; [exact Hplan|].
  exact (Hnl "ssh-ed25519 AAAA..." eq_refl).
Defined.

(** An accelerator with the CUDA version only. *)
Lemma compileBase_nil_dereference_witness :
  Image Examples.halfCUDAGraph = None /\
  CUDA Examples.halfCUDAGraph = Some "11.2" /\
  CUDNN Examples.halfCUDAGraph = None /\
  snd (compileBase "tensorchord" "v0.3.0" Examples.installConda_ok
                   Examples.halfCUDAGraph) = NilDeref.
Proof.
  split; [reflexivity|]. split; [reflexivity|]. split; [reflexivity|].
  apply (proj2 (proj2 (proj2 (compileBase_nil_dereference
                                "tensorchord" "v0.3.0"
                                Examples.installConda_ok
                                Examples.halfCUDAGraph eq_refl)))).
  intros [_ H]. discriminate (H eq_refl).
Defined.

(** ** Further properties of the stages *)

(** *** Stages only append *)

(** X1: the command runner, the package installer and the credential
    installer never look at the plan they are given: on a longer plan
    they return the same steps after the longer plan, and the
    credential installer the same error. *)
Theorem stages_append_only (DefaultGraph : Graph)
    (ReadFile : string -> string * option error) (keysPath : string)
    (g : Graph) (pre root : llb.State) :
  compileRun g (pre ++ root)%list = (pre ++ compileRun g root)%list /\
  compileSystemPackages g (pre ++ root)%list =
  (pre ++ compileSystemPackages g root)%list /\
  copySSHKey DefaultGraph ReadFile keysPath g (pre ++ root)%list =
  (st <- copySSHKey DefaultGraph ReadFile keysPath g root ;;
   Ok (pre ++ st)%list).
Proof.
  split; [|split].
  - rewrite !compileRun_app. now rewrite app_assoc.
  - rewrite !compileSystemPackages_app.
    destruct (SystemPackages g); [reflexivity | now rewrite app_assoc].
  - unfold copySSHKey.
    destruct (ReadFile (PublicKeyPath DefaultGraph)) as [bdat [e|]];
      [reflexivity|].
    cbn [bind]. unfold llb.File. now rewrite !app_assoc.
Qed.

(** *** The file stager *)

Lemma copy_loop (ctx : string) (owner : llb.ChownOpt)
    (l : list CopyInfo) (root : llbcopy.State) :
  fold_left
    (fun result c =>
       llbcopy.File result
         (llbcopy.Copy (llbcopy.Local ctx) (Source c) (Destination c) owner))
    l root
  = (root ++
     map (fun c =>
            llbcopy.CopyOp [llbcopy.LocalSource ctx] (Source c)
                           (Destination c) owner) l)%list.
Proof.
  revert root; induction l as [|c l IH]; intros root; simpl.
  - now rewrite app_nil_r.
  - rewrite IH. unfold llbcopy.File; simpl. now rewrite <- app_assoc.
Qed.

Lemma compileCopy_app (ctx : string) (g : GraphCopy)
    (root : llbcopy.State) :
  compileCopy ctx g root =
  (root ++
   map (fun c =>
          llbcopy.CopyOp [llbcopy.LocalSource ctx] (Source c)
                         (Destination c)
                         (llb.WithUIDGID (uid g) (gid g))) (Copy g))%list.
Proof.
  unfold compileCopy.
  destruct (Copy g) as [|c l] eqn:E.
  - simpl. now rewrite app_nil_r.
  - cbn [List.length Nat.eqb]. apply copy_loop.
Qed.

(** X2: the file stager adds one copy step per instruction of [Copy], in
    the order of [Copy]; every step copies from the local build context
    and gives the file to the [uid] and [gid] of the graph.  Without
    instruction the plan is returned as it is. *)
Theorem compileCopy_steps (FlagBuildContext : string) (g : GraphCopy)
    (root : llbcopy.State) :
  exists added : list llbcopy.Step,
    compileCopy FlagBuildContext g root = (root ++ added)%list /\
    List.length added = List.length (Copy g) /\
    (forall (i : nat) (c : CopyInfo),
        nth_error (Copy g) i = Some c ->
        nth_error added i =
        Some (llbcopy.CopyOp [llbcopy.LocalSource FlagBuildContext]
                             (Source c) (Destination c)
                             (llb.WithUIDGID (uid g) (gid g)))).
Proof.
  eexists. split; [apply compileCopy_app|]. split.
  - apply length_map.
  - intros i c H. rewrite nth_error_map, H. reflexivity.
Qed.

(** X3: copying a list of instructions in one stage gives the plan of
    copying a first part of the list and then, on the result, the rest. *)
Theorem compileCopy_concat (FlagBuildContext : string) (g : Graph)
    (l1 l2 : list CopyInfo) (root : llbcopy.State) :
  compileCopy FlagBuildContext (mkGraphCopy g (l1 ++ l2)) root =
  compileCopy FlagBuildContext (mkGraphCopy g l2)
    (compileCopy FlagBuildContext (mkGraphCopy g l1) root).
Proof.
  rewrite !compileCopy_app. cbn [Copy graph].
  now rewrite map_app, app_assoc.
Qed.

(** *** Base compilation: accounts, errors and images *)

Section BaseProperties.

Variable dockerOrganization : string.
Variable gitTag : string.
Variable installConda : Graph -> llb.State -> llb.State * option error.

Local Abbreviation base_image := (compileBase_image dockerOrganization gitTag).
Local Abbreviation compile :=
  (compileBase dockerOrganization gitTag installConda).

(** The [r] case of the base selection: each identifier equal to 1000
    becomes 1001, on its own. *)
Lemma compileBase_image_r (g : Graph) :
  CUDA g = None ->
  CUDNN g = None ->
  Name (Language g) = "r" ->
  base_image g =
  (set_uid (set_gid g (if gid g =? 1000 then 1001 else gid g))
           (if uid g =? 1000 then 1001 else uid g),
   Ok [llb.SetBaseImage
         ("docker.io/" ++ dockerOrganization ++ "/r-base:4.2-envd-"
          ++ gitTag)]).
Proof.
  intros Hc Hd Hr. unfold compileBase_image.
  rewrite Hc, Hd, Hr. cbn [isNil andb String.eqb Ascii.eqb Bool.eqb].
  destruct g as [os lang image cuda cudnn pkgs exec key env u i].
  cbn [uid gid set_gid set_uid OS Language Image CUDA CUDNN SystemPackages
       Exec PublicKeyPath EnvironmentName].
  destruct (i =? 1000);
    cbn [uid gid set_gid set_uid OS Language Image CUDA CUDNN SystemPackages
         Exec PublicKeyPath EnvironmentName];
    destruct (u =? 1000); reflexivity.
Qed.

(** The graph that base compilation leaves behind does not depend on the
    conda installation. *)
Lemma compileBase_graph (g : Graph) :
  Image g = None -> fst (compile g) = fst (base_image g).
Proof.
  intros Hi. destruct (base_image g) as [g' base] eqn:Hb.
  now rewrite (compileBase_no_image _ _ _ g g' base Hi Hb).
Qed.

(** X4: for the [r] base image, base compilation changes [gid] to 1001
    when it is 1000 and [uid] to 1001 when it is 1000, each on its own,
    and no other field; it does so also when the conda installation
    fails afterwards. *)
Theorem compileBase_r_adjusts (g : Graph) :
  Image g = None ->
  CUDA g = None ->
  CUDNN g = None ->
  Name (Language g) = "r" ->
  fst (compile g) =
  set_uid (set_gid g (if gid g =? 1000 then 1001 else gid g))
          (if uid g =? 1000 then 1001 else uid g).
Proof.
  intros Hi Hc Hd Hr.
  now rewrite (compileBase_graph g Hi), (compileBase_image_r g Hc Hd Hr).
Qed.

(** X5: when the [uid] left by the base selection is not 0, base
    compilation adds to the conda stage the group [envd] with the [gid]
    of the graph, the user [envd] with its [uid], the membership of
    [sudo], and the change of owner of [/usr/local/lib] and [/opt/conda]
    to [envd], in this order, and then sets the user [envd]. *)
Theorem compileBase_account (g g' : Graph) (base condaStage : llb.State) :
  Image g = None ->
  base_image g = (g', Ok base) ->
  installConda g' base = (condaStage, None) ->
  uid g' <> 0 ->
  compile g =
  (g',
   Ok (app condaStage
         [llb.RunShell ("groupadd -g " ++ itoa (gid g') ++ " envd")
            (Some "[internal] create user group envd") [];
          llb.RunShell
            ("useradd -p " ++ dq ++ dq ++ " -u " ++ itoa (uid g')
             ++ " -g envd -s /bin/sh -m envd")
            (Some "[internal] create user envd") [];
          llb.RunShell "adduser envd sudo"
            (Some "[internal] add user envd to sudoers") [];
          llb.RunShell "chown -R envd:envd /usr/local/lib"
            (Some "[internal] configure user permissions") [];
          llb.RunShell "chown -R envd:envd /opt/conda"
            (Some "[internal] configure user permissions") [];
          llb.SetUser "envd"])).
Proof.
  intros Hi Hb Hc Hu.
  rewrite (compileBase_no_image _ _ _ g g' (Ok base) Hi Hb).
  cbn [bind]. rewrite Hc, (compileBase_user_account g' condaStage Hu).
  unfold llb.User. now rewrite <- app_assoc.
Qed.

(** X6: the only error of base compilation is the error of the conda
    installation, wrapped with the message [failed to install conda]:
    it is returned exactly when there is no image override, a base is
    chosen and the conda installation on that base fails. *)
Theorem compileBase_error (g : Graph) (e : error) :
  snd (compile g) = Err e <->
  Image g = None /\
  exists (base condaStage : llb.State) (cause : error),
    snd (base_image g) = Ok base /\
    installConda (fst (base_image g)) base = (condaStage, Some cause) /\
    e = ErrWrap cause "failed to install conda".
Proof.
  destruct (Image g) as [image|] eqn:Hi.
  - unfold compileBase. rewrite Hi. cbn [snd].
    split; [discriminate | intros [H _]; discriminate].
  - destruct (base_image g) as [g' base] eqn:Hb.
    rewrite (compileBase_no_image _ _ _ g g' base Hi Hb). cbn [fst snd].
    destruct base as [b|e0|]; cbn [bind].
    + destruct (installConda g' b) as [st [cause|]] eqn:Hc.
      * split.
        -- intros H. inversion H; subst. split; [reflexivity|].
           exists b, st, cause. auto.
        -- intros [_ (b' & st' & cause' & Hb' & Hc' & ->)].
           inversion Hb'; subst b'. rewrite Hc in Hc'.
           inversion Hc'; subst. reflexivity.
      * split; [discriminate|].
        intros [_ (b' & st' & cause' & Hb' & Hc' & _)].
        inversion Hb'; subst b'. rewrite Hc in Hc'. discriminate.
    + exfalso. unfold compileBase_image in Hb.
      rewrite compileCUDAPackages_cases in Hb.
      destruct (CUDA g), (CUDNN g); cbn [isNil andb] in Hb;
        try (inversion Hb; fail).
      destruct (Name (Language g) =? "r")%string;
        [|destruct (Name (Language g) =? "python")%string;
          [|destruct (Name (Language g) =? "julia")%string]];
        inversion Hb.
    + split; [discriminate|].
      intros [_ (b' & _ & _ & Hb' & _)]. discriminate.
Qed.


(** X8: without accelerator, the base image depends on the name of the
    language only: the OS of the graph and the version of the language
    do not enter it. *)
Theorem compileBase_image_by_name (g1 g2 : Graph) :
  CUDA g1 = None -> CUDNN g1 = None ->
  CUDA g2 = None -> CUDNN g2 = None ->
  Name (Language g1) = Name (Language g2) ->
  snd (base_image g1) = snd (base_image g2).
Proof.
  intros Hc1 Hd1 Hc2 Hd2 Hn. unfold compileBase_image.
  rewrite Hc1, Hd1, Hc2, Hd2, Hn. cbn [isNil andb].
  destruct (Name (Language g2) =? "r")%string; [reflexivity|].
  destruct (Name (Language g2) =? "python")%string; [reflexivity|].
  destruct (Name (Language g2) =? "julia")%string; reflexivity.
Qed.

End BaseProperties.

(** *** The credential installer: failure, and the owner of the files *)

(** X9: the credential installer never stops on a nil pointer, and it
    returns an error exactly when reading the file of the default graph
    fails: the error is then the read error, wrapped with the message
    [Cannot read public SSH key], whatever bytes the read returned. *)
Theorem copySSHKey_failure (DefaultGraph : Graph)
    (ReadFile : string -> string * option error) (keysPath : string)
    (g : Graph) (root : llb.State) :
  copySSHKey DefaultGraph ReadFile keysPath g root <> NilDeref /\
  forall e : error,
    copySSHKey DefaultGraph ReadFile keysPath g root = Err e <->
    exists cause : error,
      snd (ReadFile (PublicKeyPath DefaultGraph)) = Some cause /\
      e = ErrWrap cause "Cannot read public SSH key".
Proof.
  unfold copySSHKey.
  destruct (ReadFile (PublicKeyPath DefaultGraph)) as [bdat [cause|]];
    cbn [snd]; (split; [discriminate|]); intros e; split.
  - intros H. inversion H; subst. eauto.
  - intros [c [Hc ->]]. inversion Hc; subst. reflexivity.
  - discriminate.
  - intros [c [Hc _]]. discriminate.
Qed.

(** X10: the stages that run after base compilation, on the graph it
    leaves behind, give their files to the adjusted identifiers: for the
    [r] base image with [uid] and [gid] 1000, the key directory, the key
    file and every copied file belong to 1001:1001. *)
Theorem files_owned_by_adjusted_ids
    (dockerOrganization gitTag : string)
    (installConda : Graph -> llb.State -> llb.State * option error)
    (DefaultGraph : Graph) (ReadFile : string -> string * option error)
    (keysPath FlagBuildContext : string)
    (g : Graph) (content : string) (copies : list CopyInfo)
    (root : llb.State) (rootc : llbcopy.State) :
  Image g = None ->
  CUDA g = None ->
  CUDNN g = None ->
  Name (Language g) = "r" ->
  uid g = 1000 ->
  gid g = 1000 ->
  ReadFile (PublicKeyPath DefaultGraph) = (content, None) ->
  copySSHKey DefaultGraph ReadFile keysPath
    (fst (compileBase dockerOrganization gitTag installConda g)) root =
  Ok (app root
        [llb.FileOp
           (llb.Mkdir "/var/envd" 493 true (llb.WithUIDGID 1001 1001)) None;
         llb.FileOp
           (llb.Mkfile keysPath 420 (TrimSuffix content nl ++ " envd")
                       (llb.WithUIDGID 1001 1001))
           (Some "install ssh keys")])
  /\
  compileCopy FlagBuildContext
    (mkGraphCopy (fst (compileBase dockerOrganization gitTag installConda g))
                 copies) rootc =
  app rootc
    (map (fun c =>
            llbcopy.CopyOp [llbcopy.LocalSource FlagBuildContext]
                           (Source c) (Destination c)
                           (llb.WithUIDGID 1001 1001)) copies).
Proof.
  intros Hi Hc Hd Hr Hu Hg Hread.
  rewrite (compileBase_graph dockerOrganization gitTag installConda g Hi),
    (compileBase_image_r dockerOrganization gitTag g Hc Hd Hr).
  rewrite Hu, Hg. cbn [fst Z.eqb Pos.eqb].
  split.
  - rewrite (copySSHKey_ok DefaultGraph ReadFile keysPath _ root content Hread).
    reflexivity.
  - rewrite compileCopy_app. reflexivity.
Qed.

(** *** The further theorems at sample inputs *)

Lemma compileBase_r_adjusts_witness :
  Name (Language Examples.rMixedGraph) = "r" /\
  uid Examples.rMixedGraph = 1000 /\
  gid Examples.rMixedGraph = 500 /\
  uid (fst (compileBase "tensorchord" "v0.3.0" Examples.installConda_fail
                        Examples.rMixedGraph)) = 1001 /\
  gid (fst (compileBase "tensorchord" "v0.3.0" Examples.installConda_fail
                        Examples.rMixedGraph)) = 500.
Proof.
  split; [reflexivity|]. split; [reflexivity|]. split; [reflexivity|].
  rewrite (compileBase_r_adjusts "tensorchord" "v0.3.0"
             Examples.installConda_fail Examples.rMixedGraph
             eq_refl eq_refl eq_refl eq_refl).
  split; reflexivity.
Defined.

Lemma compileBase_account_witness :
  uid Examples.pythonGraph <> 0 /\
  compileBase "tensorchord" "v0.3.0" Examples.installConda_ok
              Examples.pythonGraph =
  (Examples.pythonGraph,
   Ok [llb.SetBaseImage
         "docker.io/tensorchord/python:3.9-ubuntu20.04-envd-v0.3.0";
       llb.RunShell "groupadd -g 1000 envd"
         (Some "[internal] create user group envd") [];
       llb.RunShell
         ("useradd -p " ++ dq ++ dq ++ " -u 1000 -g envd -s /bin/sh -m envd")
         (Some "[internal] create user envd") [];
       llb.RunShell "adduser envd sudo"
         (Some "[internal] add user envd to sudoers") [];
       llb.RunShell "chown -R envd:envd /usr/local/lib"
         (Some "[internal] configure user permissions") [];
       llb.RunShell "chown -R envd:envd /opt/conda"
         (Some "[internal] configure user permissions") [];
       llb.SetUser "envd"]).
Proof.
  split; [discriminate|].
  exact (compileBase_account "tensorchord" "v0.3.0"
           Examples.installConda_ok Examples.pythonGraph Examples.pythonGraph
           [llb.SetBaseImage
              "docker.io/tensorchord/python:3.9-ubuntu20.04-envd-v0.3.0"]
           [llb.SetBaseImage
              "docker.io/tensorchord/python:3.9-ubuntu20.04-envd-v0.3.0"]
           eq_refl eq_refl eq_refl ltac:(discriminate)).
Defined.


Lemma compileBase_image_by_name_witness :
  OS Examples.pythonGraph <> OS Examples.debianGraph /\
  Version (Language Examples.pythonGraph)
  <> Version (Language Examples.debianGraph) /\
  snd (compileBase_image "tensorchord" "v0.3.0" Examples.pythonGraph) =
  snd (compileBase_image "tensorchord" "v0.3.0" Examples.debianGraph).
Proof.
  split; [discriminate|]. split; [discriminate|].
  exact (compileBase_image_by_name "tensorchord" "v0.3.0"
           Examples.pythonGraph Examples.debianGraph
           eq_refl eq_refl eq_refl eq_refl eq_refl).
Defined.

Lemma files_owned_by_adjusted_ids_witness :
  uid Examples.rGraph = 1000 /\
  gid Examples.rGraph = 1000 /\
  copySSHKey Examples.keyGraph Examples.ReadFile_key
    "/var/envd/authorized_keys"
    (fst (compileBase "tensorchord" "v0.3.0" Examples.installConda_ok
                      Examples.rGraph)) [] =
  Ok [llb.FileOp
        (llb.Mkdir "/var/envd" 493 true (llb.WithUIDGID 1001 1001)) None;
      llb.FileOp
        (llb.Mkfile "/var/envd/authorized_keys" 420
                    "ssh-ed25519 AAAA... envd" (llb.WithUIDGID 1001 1001))
        (Some "install ssh keys")].
Proof.
  split; [reflexivity|]. split; [reflexivity|].
  exact (proj1 (files_owned_by_adjusted_ids "tensorchord" "v0.3.0"
                  Examples.installConda_ok Examples.keyGraph
                  Examples.ReadFile_key "/var/envd/authorized_keys" "context"
                  Examples.rGraph Examples.keyContent [] [] []
                  eq_refl eq_refl eq_refl eq_refl eq_refl eq_refl eq_refl)).
Defined.
